(** * UrbanRay3D: the GeoJSON to CSV processor, [process_geojson.py]

    A shallow embedding of [get_building_height], [process_coordinates] and
    [process_geojson], over the document that [json.load] returns, and the
    properties of the height rules and of the flattening of polygon rings. *)

From Stdlib Require Import ZArith String Ascii List Bool Arith Lia.
From Stdlib Require Import Floats.SpecFloat.
Import ListNotations.
Local Open Scope string_scope.
Local Open Scope list_scope.
Set Warnings "-register-all".

(** ** Python floats: IEEE 754 binary64 *)

Definition float : Type := spec_float.
Definition prec : Z := 53.
Definition emax : Z := 1024.

(** [float(n)] for a Python int: the nearest binary64 (ties to even); an int
    beyond the range of a float has none. *)
Definition float_of_int (n : Z) : option float :=
  match binary_normalize prec emax n 0 false with
  | S754_infinity _ => None
  | f => Some f
  end.

Definition float_mul (x y : float) : float := SFmul prec emax x y.

(** The literals [0.0], [1.0] and [3.0]. *)
Definition float_zero : float := S754_zero false.
Definition float_one : float := S754_finite false 4503599627370496 (-52).
Definition float_three : float := S754_finite false 6755399441055744 (-51).

(** ** Exceptions and results *)

(** The subclasses of [Exception] the program can meet; [LibraryError] stands
    for whatever else the plotting library or the file system raises. *)
Inductive exn : Type :=
| TypeError
| ValueError
| OverflowError
| IndexError
| KeyError
| AttributeError
| LibraryError (name : string).

Inductive result (A : Type) : Type :=
| OK (a : A)
| Raise (e : exn).
Arguments OK {A} a.
Arguments Raise {A} e.

Definition bind {A B : Type} (c : result A) (k : A -> result B) : result B :=
  match c with
  | OK a => k a
  | Raise e => Raise e
  end.

Notation "x <- c ;; k" := (bind c (fun x => k))
  (at level 61, c at next level, right associativity).

(** [try: body  except (ValueError, TypeError): pass]: the value [body]
    returns, [None] when one of the two exceptions was caught, and any other
    exception goes on. *)
Definition value_or_type_error (e : exn) : bool :=
  match e with
  | ValueError | TypeError => true
  | _ => false
  end.

Definition try_pass {A : Type} (body : result A) : result (option A) :=
  match body with
  | OK a => OK (Some a)
  | Raise e => if value_or_type_error e then OK None else Raise e
  end.

(** ** The objects [json.load] builds *)

(** A dict holds its items in insertion order; where the list repeats a key
    the later item is the one the dict keeps ([dict] of a list of pairs).
    Text has one [ascii] for each character. *)
Inductive value : Type :=
| PyNone
| Bool (b : bool)
| Int (n : Z)
| Float (f : float)
| Str (s : string)
| List (l : list value)
| Dict (items : list (string * value)).

Fixpoint dict_get (key : string) (items : list (string * value)) : option value :=
  match items with
  | [] => None
  | (k, v) :: rest =>
      match dict_get key rest with
      | Some v' => Some v'
      | None => if String.eqb key k then Some v else None
      end
  end.

Fixpoint dict_keys (items : list (string * value)) : list string :=
  match items with
  | [] => []
  | (k, _) :: rest => k :: filter (fun k' => negb (String.eqb k k')) (dict_keys rest)
  end.

Fixpoint str_chars (s : string) : list value :=
  match s with
  | EmptyString => []
  | String c rest => Str (String c EmptyString) :: str_chars rest
  end.

Fixpoint str_contains (needle hay : string) : bool :=
  String.prefix needle hay
  || match hay with
     | EmptyString => false
     | String _ rest => str_contains needle rest
     end.

(** [v == s] for a text literal [s]. *)
Definition eq_str (v : value) (s : string) : bool :=
  match v with
  | Str s' => String.eqb s' s
  | _ => false
  end.

(** [isinstance(v, list)]. *)
Definition is_list (v : value) : bool :=
  match v with
  | List _ => true
  | _ => false
  end.

(** [bool(v)], the test an [if] or an [and] makes. *)
Definition truthy (v : value) : bool :=
  match v with
  | PyNone => false
  | Bool b => b
  | Int n => negb (Z.eqb n 0)
  | Float (S754_zero _) => false
  | Float _ => true
  | Str s => negb (String.eqb s "")
  | List l => match l with [] => false | _ => true end
  | Dict items => match items with [] => false | _ => true end
  end.

(** [len(v)]. *)
Definition py_len (v : value) : result nat :=
  match v with
  | List l => OK (length l)
  | Str s => OK (String.length s)
  | Dict items => OK (length (dict_keys items))
  | _ => Raise TypeError
  end.

(** [v[i]] for an int [i] that is not negative. The keys of a dict that
    [json.load] built are text, so no int is among them. *)
Definition py_index (v : value) (i : nat) : result value :=
  match v with
  | List l => match nth_error l i with Some x => OK x | None => Raise IndexError end
  | Str s => match nth_error (str_chars s) i with Some x => OK x | None => Raise IndexError end
  | Dict _ => Raise KeyError
  | _ => Raise TypeError
  end.

(** [v[key]] for a text [key]. *)
Definition py_subscript (v : value) (key : string) : result value :=
  match v with
  | Dict items => match dict_get key items with Some x => OK x | None => Raise KeyError end
  | _ => Raise TypeError
  end.

(** [key in v] for a text [key]. *)
Definition py_contains (key : string) (v : value) : result bool :=
  match v with
  | Dict items => OK (match dict_get key items with Some _ => true | None => false end)
  | List l => OK (existsb (fun x => eq_str x key) l)
  | Str s => OK (str_contains key s)
  | _ => Raise TypeError
  end.

(** [v.get(key, default)]: only a dict has the method. *)
Definition py_get (v : value) (key : string) (default : value) : result value :=
  match v with
  | Dict items => OK (match dict_get key items with Some x => x | None => default end)
  | _ => Raise AttributeError
  end.

(** The items a [for] loop over [v] visits. *)
Definition py_iter (v : value) : result (list value) :=
  match v with
  | List l => OK l
  | Str s => OK (str_chars s)
  | Dict items => OK (map Str (dict_keys items))
  | _ => Raise TypeError
  end.

(** ** Rows, loops and what the program leaves behind *)

(** A row of the output, the tuple [(lon, lat, height)]. *)
Definition row : Type := value * value * float.

Definition row_height (r : row) : float := snd r.

(** A [for] loop whose body updates a state and may raise. *)
Fixpoint for_each {A S : Type} (body : S -> A -> result S) (items : list A) (s : S)
  : result S :=
  match items with
  | [] => OK s
  | x :: rest => s' <- body s x ;; for_each body rest s'
  end.

Definition csv_header : list value :=
  [Str "longitude"; Str "latitude"; Str "height_meters"].

(** The cells [csv_writer.writerows] writes for a row. *)
Definition csv_record (r : row) : list value :=
  let '(lon, lat, height) := r in [lon; lat; Float height].

Inductive plot_kind : Type := Scatter2D | Scatter3D.

Inductive message : Type :=
| NotAvailable3D
| Failed3D (e : exn).

(** What a run leaves behind, in order: the CSV file with its records, a
    saved figure, a printed line. *)
Inductive event : Type :=
| CsvWritten (path : string) (records : list (list value))
| FigureSaved (kind : plot_kind) (path : string) (points : list row)
| Printed (m : message).

Definition is_csv_written (ev : event) : bool :=
  match ev with
  | CsvWritten _ _ => true
  | _ => false
  end.

(** [bool(building_points)] and [bool(output_img_path)]. *)
Definition truthy_points (building_points : list row) : bool :=
  match building_points with [] => false | _ :: _ => true end.

Definition truthy_path (output_img_path : option string) : bool :=
  match output_img_path with
  | None => false
  | Some p => negb (String.eqb p "")
  end.

Definition path_text (output_img_path : option string) : string :=
  match output_img_path with
  | None => ""
  | Some p => p
  end.

(** ** GeoJSON shapes, for the statements *)

Definition is_number (v : value) : bool :=
  match v with
  | Int _ | Float _ => true
  | _ => false
  end.

(** A point entry of a ring: a list of numbers, of any length. *)
Definition is_position (v : value) : bool :=
  match v with
  | List cs => forallb is_number cs
  | _ => false
  end.

(** A point with its longitude and latitude: at least two numbers. *)
Definition full_position (v : value) : bool :=
  match v with
  | List cs => forallb is_number cs && (2 <=? length cs)%nat
  | _ => false
  end.

(** The points of an exterior ring the flattening is meant for: at least one
    point, each with its longitude and latitude. *)
Definition building_ring (points : list value) : bool :=
  match points with
  | [] => false
  | _ :: _ => forallb full_position points
  end.

(** A ring: a list of point entries. *)
Definition is_ring (v : value) : bool :=
  match v with
  | List ps => forallb is_position ps
  | _ => false
  end.

(** The rows a point entry stands for: one row of its first two coordinates
    when it has them, none otherwise. *)
Definition point_rows (height : float) (point : value) : list row :=
  match point with
  | List (lon :: lat :: _) => [(lon, lat, height)]
  | _ => []
  end.

Definition ring_rows (height : float) (points : list value) : list row :=
  flat_map (point_rows height) points.

(** The rows of an exterior ring. *)
Definition exterior_rows (height : float) (ring : value) : list row :=
  match ring with
  | List points => ring_rows height points
  | _ => []
  end.

(** The type a geometry object names, [None] when it names none. *)
Definition geometry_type (g : list (string * value)) : value :=
  match dict_get "type" g with
  | Some t => t
  | None => PyNone
  end.

(** A polygon of a MultiPolygon, from its exterior ring and its holes. *)
Definition polygon_of (part : list value * list value) : value :=
  List (List (fst part) :: snd part).

(** Each item's own result, in order, up to the first that raises. *)
Fixpoint map_result {A B : Type} (f : A -> result B) (items : list A) : result (list B) :=
  match items with
  | [] => OK []
  | x :: rest => y <- f x ;; ys <- map_result f rest ;; OK (y :: ys)
  end.

(** A value [float] turns into a number, with the number. *)
Definition numeric (to_float : value -> result float) (v : value) : option float :=
  match to_float v with
  | OK f => Some f
  | Raise _ => None
  end.

(** An attribute that is not an int too large for a float. *)
Definition within_float_range (key : string) (items : list (string * value)) : bool :=
  match dict_get key items with
  | Some (Int n) => match float_of_int n with Some _ => true | None => false end
  | _ => true
  end.

(** The height rules in the words of the specification: the numeric height,
    else three times the numeric count of levels, else 3.0. *)
Definition height_by_precedence (to_float : value -> result float)
  (items : list (string * value)) : float :=
  match option_map (numeric to_float) (dict_get "height" items) with
  | Some (Some h) => h
  | _ =>
      match option_map (numeric to_float) (dict_get "building:levels" items) with
      | Some (Some levels) => float_mul levels float_three
      | _ => float_three
      end
  end.

(** The properties [process_geojson] hands to [get_building_height], and the
    geometry it looks at. *)
Definition feature_properties (items : list (string * value)) : value :=
  match dict_get "properties" items with
  | Some p => p
  | None => Dict []
  end.

Definition feature_geometry (items : list (string * value)) : value :=
  match dict_get "geometry" items with
  | Some g => g
  | None => Dict []
  end.

(** A reader of unsigned decimal integer literals, on which [float] agrees
    with it; the examples below run the processor with it. *)
Fixpoint digits_value (s : string) (acc : Z) : option Z :=
  match s with
  | EmptyString => Some acc
  | String c rest =>
      let d := (Z.of_nat (nat_of_ascii c) - 48)%Z in
      if (0 <=? d)%Z && (d <=? 9)%Z then digits_value rest (10 * acc + d)%Z else None
  end.

Definition decimal_float (s : string) : option float :=
  match s with
  | EmptyString => None
  | _ => match digits_value s 0 with Some n => float_of_int n | None => None end
  end.

(** ** More shapes, for the properties beyond the claims *)

Definition is_dict (v : value) : bool :=
  match v with
  | Dict _ => true
  | _ => false
  end.

Definition is_str (v : value) : bool :=
  match v with
  | Str _ => true
  | _ => false
  end.

(** A point entry that yields a row: a list of two coordinates or more. *)
Definition two_coordinates (v : value) : bool :=
  match v with
  | List (_ :: _ :: _) => true
  | _ => false
  end.

(** A ring of at least one entry, each entry a list of any length. *)
Definition entry_ring (points : list value) : bool :=
  match points with
  | [] => false
  | _ :: _ => forallb is_list points
  end.

(** The coordinates member of a geometry is absent or is the empty list. *)
Definition no_coordinates (g : list (string * value)) : bool :=
  match dict_get "coordinates" g with
  | None | Some (List []) => true
  | Some _ => false
  end.

(** A row with another height in place of its own. *)
Definition with_height (height : float) (r : row) : row := (fst r, height).

Definition result_map {A B : Type} (f : A -> B) (c : result A) : result B :=
  match c with
  | OK a => OK (f a)
  | Raise e => Raise e
  end.

Definition is_figure_saved (ev : event) : bool :=
  match ev with
  | FigureSaved _ _ _ => true
  | _ => false
  end.

(** What a saved figure shows: the given points, at the given path. *)
Definition figure_of (path : string) (points : list row) (ev : event) : Prop :=
  match ev with
  | FigureSaved _ path' points' => path' = path /\ points' = points
  | _ => True
  end.

(** ** Sample documents *)

Definition position (lon lat : Z) : value := List [Int lon; Int lat].

(** A closed square of five points and a triangle inside it. *)
Definition square : list value :=
  [position 0 0; position 0 4; position 4 4; position 4 0; position 0 0].

Definition triangle : list value :=
  [position 1 1; position 1 2; position 2 1; position 1 1].

Definition strip : list value :=
  [position 10 0; position 10 1; position 11 0; position 10 0].

Definition square_geometry : list (string * value) :=
  [("type", Str "Polygon"); ("coordinates", List [List square; List triangle])].

Definition square_feature : list (string * value) :=
  [("type", Str "Feature");
   ("properties", Dict [("height", Str "12"); ("building:levels", Int 2)]);
   ("geometry", Dict square_geometry)].

Definition two_parts : list (list value * list value) :=
  [(square, [List triangle]); (strip, [])].

Definition two_parts_geometry : list (string * value) :=
  [("type", Str "MultiPolygon"); ("coordinates", List (map polygon_of two_parts))].

Definition two_parts_feature : list (string * value) :=
  [("type", Str "Feature");
   ("properties", Dict [("building:levels", Str "4")]);
   ("geometry", Dict two_parts_geometry)].

Definition point_geometry : list (string * value) :=
  [("type", Str "Point"); ("coordinates", position 3 3)].

Definition point_feature : list (string * value) :=
  [("type", Str "Feature");
   ("properties", Dict [("height", Int 12)]);
   ("geometry", Dict point_geometry)].



Definition plain_feature : list (string * value) :=
  [("type", Str "Feature"); ("geometry", Dict square_geometry)].

(** A ring with a point entry of one coordinate, and its feature. *)
Definition short_ring : list value := [position 1 2; List [Int 3]].

Definition polygon_feature_of (rings : list value) : list (string * value) :=
  [("type", Str "Feature");
   ("properties", Dict []);
   ("geometry", Dict [("type", Str "Polygon"); ("coordinates", List rings)])].

Definition multipolygon_feature_of (polygons : list value) : list (string * value) :=
  [("type", Str "Feature");
   ("properties", Dict []);
   ("geometry", Dict [("type", Str "MultiPolygon"); ("coordinates", List polygons)])].

Definition sample_document : value :=
  Dict [("type", Str "FeatureCollection");
        ("features", List [Dict square_feature; Dict point_feature; Dict two_parts_feature])].

Definition empty_document : value :=
  Dict [("type", Str "FeatureCollection"); ("features", List [])].

(** The float 12.0. *)
Definition float_twelve : float := S754_finite false 6755399441055744 (-49).

(** A plotting library that fails at every figure, and one that fails at the
    3D figures only. *)
Definition no_figure (kind : plot_kind) (points : list row) (path : string) : result unit :=
  Raise (LibraryError "savefig").

Definition flat_figures_only (kind : plot_kind) (points : list row) (path : string)
  : result unit :=
  match kind with
  | Scatter2D => OK tt
  | Scatter3D => Raise (LibraryError "projection")
  end.

(** A MultiPolygon whose ring begins with an entry of no coordinates, a
    Polygon whose ring begins with an entry of one, and a Polygon with no
    coordinates member. *)
Definition ragged_parts : list (list value * list value) :=
  [(List [] :: short_ring, [List triangle]); (strip, [])].

Definition ragged_geometry : list (string * value) :=
  [("type", Str "MultiPolygon"); ("coordinates", List (map polygon_of ragged_parts))].

Definition ragged_feature : list (string * value) :=
  [("type", Str "Feature"); ("properties", Dict []); ("geometry", Dict ragged_geometry)].

Definition ragged_ring : list value := List [Int 7] :: short_ring.

Definition ragged_polygon_geometry : list (string * value) :=
  [("type", Str "Polygon"); ("coordinates", List [List ragged_ring; List triangle])].

Definition ragged_polygon_feature : list (string * value) :=
  [("type", Str "Feature");
   ("properties", Dict [("height", Int 12)]);
   ("geometry", Dict ragged_polygon_geometry)].

Definition hollow_geometry : list (string * value) := [("type", Str "Polygon")].

Definition hollow_feature : list (string * value) :=
  [("type", Str "Feature");
   ("properties", Dict [("height", Int 12)]);
   ("geometry", Dict hollow_geometry)].

(** A document whose second feature has an exterior ring of no point, and a
    document with no features member. *)
Definition broken_items : list (string * value) :=
  [("type", Str "FeatureCollection");
   ("features", List ([Dict square_feature]
                      ++ Dict (polygon_feature_of [List []]) :: [Dict two_parts_feature]))].

Definition featureless_items : list (string * value) :=
  [("type", Str "FeatureCollection")].

(** The points of [sample_document]. *)
Definition sample_points : list row :=
  ring_rows float_twelve square ++ ring_rows float_twelve square
  ++ ring_rows float_twelve strip.

(** A plotting library that saves every figure. *)
Definition every_figure (kind : plot_kind) (points : list row) (path : string) : result unit :=
  OK tt.

Section Processor.

(** [float(s)] for text: the number Python reads in [s], or [None] where it
    raises [ValueError]. The grammar is Python's, not this program's. *)
Variable float_of_str : string -> option float.

(** [float(v)]. *)
Definition py_float (v : value) : result float :=
  match v with
  | Float f => OK f
  | Int n => match float_of_int n with Some f => OK f | None => Raise OverflowError end
  | Bool b => OK (if b then float_one else float_zero)
  | Str s => match float_of_str s with Some f => OK f | None => Raise ValueError end
  | PyNone | List _ | Dict _ => Raise TypeError
  end.

(** ** [get_building_height] *)

Definition get_building_height (properties : value) : result float :=
  has_height <- py_contains "height" properties ;;
  direct <- (if has_height : bool
             then try_pass (h <- py_subscript properties "height" ;; py_float h)
             else OK None) ;;
  match direct with
  | Some height => OK height
  | None =>
      has_levels <- py_contains "building:levels" properties ;;
      scaled <- (if has_levels : bool
                 then try_pass (x <- py_subscript properties "building:levels" ;;
                                levels <- py_float x ;;
                                OK (float_mul levels float_three))
                 else OK None) ;;
      match scaled with
      | Some height => OK height
      | None => OK float_three
      end
  end.

(** ** [process_coordinates] *)

(** The body of [for point in exterior_ring], the same in both branches: a
    point with at least two coordinates is appended to [results]. *)
Definition append_point (height : float) (results : list row) (point : value)
  : result (list row) :=
  n <- py_len point ;;
  if (2 <=? n)%nat then
    lon <- py_index point 0 ;;
    lat <- py_index point 1 ;;
    OK (results ++ [(lon, lat, height)])
  else OK results.

Definition ring_points (height : float) (exterior_ring : value) (results : list row)
  : result (list row) :=
  points <- py_iter exterior_ring ;;
  for_each (append_point height) points results.

(** [len(coords) > 0 and isinstance(coords[0][0], list)
     and not isinstance(coords[0][0][0], list)]. *)
Definition simple_polygon_test (coords : value) : result bool :=
  n <- py_len coords ;;
  if (0 <? n)%nat then
    ring <- py_index coords 0 ;;
    first <- py_index ring 0 ;;
    if is_list first then
      c <- py_index first 0 ;;
      OK (negb (is_list c))
    else OK false
  else OK false.

(** The body of [for polygon in coords]. *)
Definition append_polygon (height : float) (results : list row) (polygon : value)
  : result (list row) :=
  nonempty <- (if truthy polygon then n <- py_len polygon ;; OK (0 <? n)%nat else OK false) ;;
  if nonempty : bool then
    exterior_ring <- py_index polygon 0 ;;
    ring_points height exterior_ring results
  else OK results.

Definition process_coordinates (coords : value) (height : float) : result (list row) :=
  let results := [] in
  simple <- simple_polygon_test coords ;;
  if simple : bool then
    exterior_ring <- py_index coords 0 ;;
    ring_points height exterior_ring results
  else
    polygons <- py_iter coords ;;
    for_each (append_polygon height) polygons results.

(** ** [process_geojson] *)

(** [geometry and geometry.get('type') in ['Polygon', 'MultiPolygon']]. *)
Definition polygon_geometry (geometry : value) : result bool :=
  if truthy geometry then
    t <- py_get geometry "type" PyNone ;;
    OK (eq_str t "Polygon" || eq_str t "MultiPolygon")
  else OK false.

(** The body of [for polygon_coords in geometry.get('coordinates', [])]. *)
Definition extend_with_polygon (height : float) (building_points : list row)
  (polygon_coords : value) : result (list row) :=
  points <- process_coordinates (List [polygon_coords]) height ;;
  OK (building_points ++ points).

(** The two branches on the geometry type, which extend [building_points]. *)
Definition extend_with_geometry (geometry : value) (height : float)
  (building_points : list row) : result (list row) :=
  t <- py_get geometry "type" PyNone ;;
  if eq_str t "Polygon" then
    coords <- py_get geometry "coordinates" (List []) ;;
    points <- process_coordinates coords height ;;
    OK (building_points ++ points)
  else
    t' <- py_get geometry "type" PyNone ;;
    if eq_str t' "MultiPolygon" then
      coords <- py_get geometry "coordinates" (List []) ;;
      polygons <- py_iter coords ;;
      for_each (extend_with_polygon height) polygons building_points
    else OK building_points.

(** The body of [for feature in geojson_data.get('features', [])]. *)
Definition process_feature (building_points : list row) (feature : value)
  : result (list row) :=
  geometry <- py_get feature "geometry" (Dict []) ;;
  properties <- py_get feature "properties" (Dict []) ;;
  wanted <- polygon_geometry geometry ;;
  if wanted : bool then
    height <- get_building_height properties ;;
    extend_with_geometry geometry height building_points
  else OK building_points.

(** The points [process_geojson] has collected when it opens the CSV file. *)
Definition collect_building_points (geojson_data : value) : result (list row) :=
  let building_points := [] in
  features <- py_get geojson_data "features" (List []) ;;
  items <- py_iter features ;;
  for_each process_feature items building_points.

(** [open] and [json.load] on the input path: the document, or what they
    raise. *)
Variable json_load : string -> result value.

(** Whether [mpl_toolkits.mplot3d] could be imported. *)
Variable HAS_3D_SUPPORT : bool.

(** What the plotting library does with a scatter plot of the points that is
    to be saved at a path: it saves the figure or raises. *)
Variable scatter_savefig : plot_kind -> list row -> string -> result unit.

(** Unpacking [zip] of the points into [x, y, z] needs a point; then the
    library plots. *)
Definition draw (kind : plot_kind) (points : list row) (output_path : string)
  : list event * result unit :=
  match points with
  | [] => ([], Raise ValueError)
  | _ :: _ =>
      match scatter_savefig kind points output_path with
      | OK _ => ([FigureSaved kind output_path points], OK tt)
      | Raise e => ([], Raise e)
      end
  end.

Definition create_2d_visualization (points : list row) (output_path : string)
  : list event * result unit :=
  draw Scatter2D points output_path.

Definition create_3d_visualization (points : list row) (output_path : string)
  : list event * result unit :=
  if negb HAS_3D_SUPPORT then ([Printed NotAvailable3D], OK tt)
  else draw Scatter3D points output_path.

(** The preview, after the CSV file is closed. *)
Definition preview (building_points : list row) (output_img_path : string)
  : list event * result unit :=
  if HAS_3D_SUPPORT then
    match create_3d_visualization building_points output_img_path with
    | (out, OK _) => (out, OK tt)
    | (out, Raise e) =>
        let '(out2, r) := create_2d_visualization building_points output_img_path in
        (out ++ Printed (Failed3D e) :: out2, r)
    end
  else create_2d_visualization building_points output_img_path.

(** The run: what it leaves behind and what it returns or raises. Opening
    the CSV file and writing its records are taken to succeed. *)
Definition process_geojson (file_path output_csv_path : string)
  (output_img_path : option string) : list event * result nat :=
  match geojson_data <- json_load file_path ;; collect_building_points geojson_data with
  | Raise e => ([], Raise e)
  | OK building_points =>
      let written :=
        [CsvWritten output_csv_path (csv_header :: map csv_record building_points)] in
      if truthy_points building_points && truthy_path output_img_path then
        match preview building_points (path_text output_img_path) with
        | (out, OK _) => (written ++ out, OK (length building_points))
        | (out, Raise e) => (written ++ out, Raise e)
        end
      else (written, OK (length building_points))
  end.

(** ** Loops *)

(** A loop whose body only appends what the item yields returns the state it
    began with, followed by the yields in the order of the items. *)
Lemma for_each_appends {A R : Type} (body : list R -> A -> result (list R))
  (yield : A -> result (list R)) :
  (forall s x, body s x = (r <- yield x ;; OK (s ++ r))) ->
  forall items s,
    for_each body items s = (rs <- map_result yield items ;; OK (s ++ concat rs)).
Proof.
  intros Hbody items.
  induction items as [|x rest IH]; intros s; simpl.
  - now rewrite app_nil_r.
  - rewrite Hbody.
    destruct (yield x) as [r|e]; simpl; [|reflexivity].
    rewrite IH.
    destruct (map_result yield rest) as [rs|e]; simpl; [|reflexivity].
    now rewrite app_assoc.
Qed.

Lemma append_point_list (height : float) (results : list row) (cs : list value) :
  append_point height results (List cs) = OK (results ++ point_rows height (List cs)).
Proof.
  destruct cs as [|lon [|lat rest]]; simpl; now rewrite ?app_nil_r.
Qed.

#[local] Arguments ring_rows : simpl never.

Lemma for_each_point (height : float) (points : list value) :
  forallb is_list points = true ->
  forall results,
    for_each (append_point height) points results = OK (results ++ ring_rows height points).
Proof.
  unfold ring_rows.
  induction points as [|p rest IH]; simpl; intros Hl results.
  - now rewrite app_nil_r.
  - apply andb_prop in Hl as [Hp Hrest].
    destruct p; try discriminate.
    rewrite append_point_list. cbn [bind].
    rewrite (IH Hrest). now rewrite <- app_assoc.
Qed.

Lemma position_is_list (points : list value) :
  forallb is_position points = true -> forallb is_list points = true.
Proof.
  induction points as [|p rest IH]; simpl; [reflexivity|].
  intros H. apply andb_prop in H as [Hp Hrest].
  rewrite (IH Hrest). now destruct p.
Qed.

Lemma full_position_is_position (points : list value) :
  forallb full_position points = true -> forallb is_position points = true.
Proof.
  induction points as [|p rest IH]; simpl; [reflexivity|].
  intros H. apply andb_prop in H as [Hp Hrest].
  rewrite (IH Hrest), andb_true_r.
  destruct p; try discriminate. simpl in *.
  now apply andb_prop in Hp as [-> _].
Qed.

Lemma ring_rows_full (height : float) (points : list value) :
  forallb full_position points = true ->
  length (ring_rows height points) = length points
  /\ Forall (fun r => row_height r = height) (ring_rows height points).
Proof.
  unfold ring_rows.
  induction points as [|p rest IH]; simpl; intros H.
  - split; [reflexivity | constructor].
  - apply andb_prop in H as [Hp Hrest].
    destruct (IH Hrest) as [Hlen Hall].
    destruct p as [| | | | |cs|]; try discriminate.
    destruct cs as [|lon [|lat more]]; simpl in Hp;
      try discriminate; try (rewrite andb_false_r in Hp; discriminate).
    simpl. split; [now rewrite Hlen | now constructor].
Qed.

(** ** [process_coordinates] on the coordinates the two geometry types hand it *)

(** A Polygon's coordinates, whose exterior ring begins with a point that has
    a number first. *)
Lemma process_coordinates_polygon (height : float) (c : value) (cs points holes : list value) :
  is_list c = false ->
  forallb is_list points = true ->
  process_coordinates (List (List (List (c :: cs) :: points) :: holes)) height
  = OK (ring_rows height (List (c :: cs) :: points)).
Proof.
  intros Hc Hpoints.
  unfold process_coordinates, simple_polygon_test. simpl.
  rewrite Hc. simpl.
  unfold ring_points. cbn [py_iter bind].
  now rewrite for_each_point by (simpl; exact Hpoints).
Qed.

(** One polygon of a MultiPolygon, wrapped in a list, whose exterior ring
    begins with a list. *)
Lemma process_coordinates_wrapped (height : float) (p : value) (points holes : list value) :
  is_list p = true ->
  forallb is_list points = true ->
  process_coordinates (List [List (List (p :: points) :: holes)]) height
  = OK (ring_rows height (p :: points)).
Proof.
  intros Hp Hpoints.
  unfold process_coordinates, simple_polygon_test. simpl.
  destruct p as [| | | | |cs|]; try discriminate.
  cbn [is_list negb]. unfold append_polygon. cbn [truthy py_len length Nat.ltb Nat.leb bind py_index nth_error].
  unfold ring_points. cbn [py_iter bind].
  now rewrite for_each_point by (simpl; exact Hpoints).
Qed.

(** ** Every step only appends *)


Lemma for_each_from_nil {A R : Type} (body : list R -> A -> result (list R)) :
  (forall s x, body s x = (r <- body [] x ;; OK (s ++ r))) ->
  forall items s,
    for_each body items s = (r <- for_each body items [] ;; OK (s ++ r)).
Proof.
  intros Hbody items s.
  rewrite !(for_each_appends body (body []) Hbody).
  now destruct (map_result (body []) items).
Qed.



Lemma extend_with_polygon_acc (height : float) (acc : list row) (polygon_coords : value) :
  extend_with_polygon height acc polygon_coords
  = (r <- extend_with_polygon height [] polygon_coords ;; OK (acc ++ r)).
Proof.
  unfold extend_with_polygon.
  now destruct (process_coordinates (List [polygon_coords]) height).
Qed.

Lemma extend_with_geometry_acc (geometry : value) (height : float) (acc : list row) :
  extend_with_geometry geometry height acc
  = (r <- extend_with_geometry geometry height [] ;; OK (acc ++ r)).
Proof.
  unfold extend_with_geometry.
  destruct (py_get geometry "type" PyNone) as [t|e]; cbn [bind]; [|reflexivity].
  destruct (eq_str t "Polygon").
  - destruct (py_get geometry "coordinates" (List [])) as [coords|e]; cbn [bind]; [|reflexivity].
    now destruct (process_coordinates coords height).
  - destruct (eq_str t "MultiPolygon"); [|cbn [bind]; now rewrite app_nil_r].
    destruct (py_get geometry "coordinates" (List [])) as [coords|e]; cbn [bind]; [|reflexivity].
    destruct (py_iter coords) as [polygons|e]; cbn [bind]; [|reflexivity].
    apply for_each_from_nil, extend_with_polygon_acc.
Qed.

Lemma process_feature_acc (acc : list row) (feature : value) :
  process_feature acc feature = (r <- process_feature [] feature ;; OK (acc ++ r)).
Proof.
  unfold process_feature.
  destruct (py_get feature "geometry" (Dict [])) as [geometry|e]; cbn [bind]; [|reflexivity].
  destruct (py_get feature "properties" (Dict [])) as [properties|e]; cbn [bind]; [|reflexivity].
  destruct (polygon_geometry geometry) as [[|]|e]; cbn [bind]; trivial.
  - destruct (get_building_height properties) as [height|e]; cbn [bind]; [|reflexivity].
    apply extend_with_geometry_acc.
  - now rewrite app_nil_r.
Qed.


(** ** A feature and its geometry *)

Lemma process_feature_dict (acc : list row) (items : list (string * value)) :
  process_feature acc (Dict items)
  = (wanted <- polygon_geometry (feature_geometry items) ;;
     if wanted : bool then
       height <- get_building_height (feature_properties items) ;;
       extend_with_geometry (feature_geometry items) height acc
     else OK acc).
Proof. reflexivity. Qed.

Lemma typed_geometry_truthy (g : list (string * value)) (t : value) :
  dict_get "type" g = Some t -> truthy (Dict g) = true.
Proof. destruct g; [discriminate | reflexivity]. Qed.

Lemma building_ring_shape (ring : list value) :
  building_ring ring = true ->
  exists c cs points,
    ring = List (c :: cs) :: points
    /\ is_list c = false
    /\ forallb is_list points = true
    /\ forallb full_position ring = true.
Proof.
  destruct ring as [|p points]; [discriminate|].
  intros H. change (forallb full_position (p :: points) = true) in H.
  pose proof H as Hall.
  simpl in H. apply andb_prop in H as [Hp Hrest].
  destruct p as [| | | | |cs|]; try discriminate.
  destruct cs as [|c cs]; [discriminate|].
  simpl in Hp. apply andb_prop in Hp as [Hnum _]. apply andb_prop in Hnum as [Hc _].
  exists c, cs, points. repeat split; trivial.
  - now destruct c.
  - now apply position_is_list, full_position_is_position.
Qed.

Lemma polygon_geometry_typed (g : list (string * value)) (t : string) :
  dict_get "type" g = Some (Str t) ->
  polygon_geometry (Dict g) = OK (String.eqb t "Polygon" || String.eqb t "MultiPolygon").
Proof.
  intros Ht. unfold polygon_geometry.
  rewrite (typed_geometry_truthy g _ Ht). cbn [py_get bind]. now rewrite Ht.
Qed.

Lemma extend_with_polygons (height : float) (parts : list (list value * list value)) :
  forallb (fun part => building_ring (fst part)) parts = true ->
  forall acc,
    for_each (extend_with_polygon height) (map polygon_of parts) acc
    = OK (acc ++ flat_map (fun part => ring_rows height (fst part)) parts).
Proof.
  induction parts as [|[ring holes] rest IH]; simpl; intros H acc.
  - now rewrite app_nil_r.
  - apply andb_prop in H as [Hring Hrest].
    destruct (building_ring_shape ring Hring) as (c & cs & points & -> & _ & Hpoints & _).
    unfold extend_with_polygon at 1, polygon_of at 1. cbn [fst snd].
    rewrite process_coordinates_wrapped by trivial. cbn [bind].
    rewrite (IH Hrest). now rewrite <- app_assoc.
Qed.

Lemma length_flat_map_rings (height : float) (parts : list (list value * list value)) :
  forallb (fun part => building_ring (fst part)) parts = true ->
  length (flat_map (fun part => ring_rows height (fst part)) parts)
  = list_sum (map (fun part => length (fst part)) parts)
  /\ Forall (fun r => row_height r = height)
       (flat_map (fun part => ring_rows height (fst part)) parts).
Proof.
  induction parts as [|[ring holes] rest IH]; simpl; intros H.
  - split; [reflexivity | constructor].
  - apply andb_prop in H as [Hring Hrest].
    destruct (building_ring_shape ring Hring) as (_ & _ & _ & _ & _ & _ & Hfull).
    destruct (ring_rows_full height ring Hfull) as [Hlen Hall].
    destruct (IH Hrest) as [Hlen' Hall'].
    split.
    + rewrite length_app. congruence.
    + apply Forall_app. now split.
Qed.

(** C2, as the code has it: a feature whose geometry is a Polygon, whose
    exterior ring has N points, N at least one, each with at least two
    numbers, and whose height resolves to [height], adds exactly N rows to
    the points collected so far, each of them with [height]. *)
Theorem polygon_feature_rows (items g : list (string * value)) (ring holes : list value)
  (height : float) (acc : list row) :
  dict_get "geometry" items = Some (Dict g) ->
  dict_get "type" g = Some (Str "Polygon") ->
  dict_get "coordinates" g = Some (List (List ring :: holes)) ->
  building_ring ring = true ->
  get_building_height (feature_properties items) = OK height ->
  process_feature acc (Dict items) = OK (acc ++ ring_rows height ring)
  /\ length (ring_rows height ring) = length ring
  /\ Forall (fun r => row_height r = height) (ring_rows height ring).
Proof.
  intros Hgeom Htype Hcoords Hring Hheight.
  destruct (building_ring_shape ring Hring) as (c & cs & points & -> & Hc & Hpoints & Hfull).
  split; [|now apply ring_rows_full].
  rewrite process_feature_dict. unfold feature_geometry. rewrite Hgeom.
  rewrite (polygon_geometry_typed g _ Htype). cbn [String.eqb Ascii.eqb Bool.eqb orb bind].
  rewrite Hheight. cbn [bind].
  unfold extend_with_geometry. cbn [py_get bind]. rewrite Htype, Hcoords.
  cbn [eq_str String.eqb Ascii.eqb Bool.eqb].
  now rewrite process_coordinates_polygon.
Qed.

(** C3, as the code has it: a feature whose geometry is a MultiPolygon, the
    exterior rings R1..Rk of whose polygons each have at least one point and
    only points with at least two numbers, adds exactly |R1| + ... + |Rk|
    rows, polygon after polygon, each with the height of the feature. *)
Theorem multipolygon_feature_rows (items g : list (string * value))
  (parts : list (list value * list value)) (height : float) (acc : list row) :
  dict_get "geometry" items = Some (Dict g) ->
  dict_get "type" g = Some (Str "MultiPolygon") ->
  dict_get "coordinates" g = Some (List (map polygon_of parts)) ->
  forallb (fun part => building_ring (fst part)) parts = true ->
  get_building_height (feature_properties items) = OK height ->
  process_feature acc (Dict items)
  = OK (acc ++ flat_map (fun part => ring_rows height (fst part)) parts)
  /\ length (flat_map (fun part => ring_rows height (fst part)) parts)
     = list_sum (map (fun part => length (fst part)) parts)
  /\ Forall (fun r => row_height r = height)
       (flat_map (fun part => ring_rows height (fst part)) parts).
Proof.
  intros Hgeom Htype Hcoords Hrings Hheight.
  split; [|now apply length_flat_map_rings].
  rewrite process_feature_dict. unfold feature_geometry. rewrite Hgeom.
  rewrite (polygon_geometry_typed g _ Htype). cbn [String.eqb Ascii.eqb Bool.eqb orb bind].
  rewrite Hheight. cbn [bind].
  unfold extend_with_geometry. cbn [py_get bind]. rewrite Htype, Hcoords.
  cbn [eq_str String.eqb Ascii.eqb Bool.eqb py_iter bind].
  now apply extend_with_polygons.
Qed.

(** C4: of a Polygon's coordinates, and of each polygon of a MultiPolygon,
    only the first ring is read. The rings after it, whatever they hold,
    change nothing: the result is the one for the exterior ring alone, and
    the rows returned are the rows of the exterior ring. *)
Theorem holes_ignored (ext : value) (holes : list value) (height : float) (acc : list row) :
  is_ring ext = true ->
  process_coordinates (List (ext :: holes)) height = process_coordinates (List [ext]) height
  /\ extend_with_polygon height acc (List (ext :: holes))
     = extend_with_polygon height acc (List [ext])
  /\ (forall rows, process_coordinates (List (ext :: holes)) height = OK rows ->
        rows = exterior_rows height ext)
  /\ (forall rows, extend_with_polygon height acc (List (ext :: holes)) = OK rows ->
        rows = acc ++ exterior_rows height ext).
Proof.
  intros Hring. unfold extend_with_polygon.
  destruct ext as [| | | | |points|]; try discriminate.
  destruct points as [|p points].
  - repeat split; try reflexivity; intros rows H; discriminate H.
  - simpl in Hring. apply andb_prop in Hring as [Hp Hpoints].
    apply position_is_list in Hpoints.
    destruct p as [| | | | |cs|]; try discriminate.
    rewrite !process_coordinates_wrapped by trivial.
    destruct cs as [|c cs].
    + repeat split; try reflexivity; intros rows H; try discriminate H.
      now injection H as <-.
    + simpl in Hp. apply andb_prop in Hp as [Hc _].
      assert (is_list c = false) as Hc' by now destruct c.
      rewrite !process_coordinates_polygon by trivial.
      repeat split; intros rows H; now injection H as <-.
Qed.

(** C5: a feature whose geometry names a type that is neither Polygon nor
    MultiPolygon adds no row, whatever its other members are. *)
Theorem other_geometry_no_rows (items g : list (string * value)) (acc : list row) :
  dict_get "geometry" items = Some (Dict g) ->
  eq_str (geometry_type g) "Polygon" = false ->
  eq_str (geometry_type g) "MultiPolygon" = false ->
  process_feature acc (Dict items) = OK acc.
Proof.
  intros Hgeom Hp Hm.
  rewrite process_feature_dict. unfold feature_geometry. rewrite Hgeom.
  unfold polygon_geometry. destruct (truthy (Dict g)); [|reflexivity].
  cbn [py_get bind]. fold (geometry_type g). now rewrite Hp, Hm.
Qed.


(** ** The height rules *)

Lemma try_float_in_range (key : string) (items : list (string * value)) (v : value) :
  within_float_range key items = true ->
  dict_get key items = Some v ->
  try_pass (py_float v) = OK (numeric py_float v)
  /\ try_pass (levels <- py_float v ;; OK (float_mul levels float_three))
     = OK (option_map (fun levels => float_mul levels float_three) (numeric py_float v)).
Proof.
  unfold within_float_range, numeric. intros Hrange Hv. rewrite Hv in Hrange.
  destruct v as [| | n | | s | |]; try (split; reflexivity); cbn [py_float].
  - destruct (float_of_int n); [split; reflexivity | discriminate].
  - destruct (float_of_str s); split; reflexivity.
Qed.

(** The precedence of C1 where no attribute is an int beyond the range of a
    float: the height attribute when [float] turns it into a number, else
    three times the levels attribute when [float] turns that into a number,
    else 3.0; an attribute [float] rejects counts as missing. *)
Lemma height_precedence (items : list (string * value)) :
  within_float_range "height" items = true ->
  within_float_range "building:levels" items = true ->
  get_building_height (Dict items) = OK (height_by_precedence py_float items).
Proof.
  intros Hh Hl. unfold get_building_height, height_by_precedence.
  cbn [py_contains py_subscript bind].
  assert (match option_map (numeric py_float) (dict_get "building:levels" items) with
          | Some (Some levels) => float_mul levels float_three
          | _ => float_three
          end
          = match dict_get "building:levels" items with
            | Some v =>
                match numeric py_float v with
                | Some levels => float_mul levels float_three
                | None => float_three
                end
            | None => float_three
            end) as -> by now destruct (dict_get "building:levels" items).
  assert ((has_levels <- OK match dict_get "building:levels" items with
                            | Some _ => true
                            | None => false
                            end ;;
           scaled <- (if has_levels : bool
                      then try_pass (x <- match dict_get "building:levels" items with
                                          | Some x => OK x
                                          | None => Raise KeyError
                                          end ;;
                                     levels <- py_float x ;;
                                     OK (float_mul levels float_three))
                      else OK None) ;;
           match scaled with
           | Some height => OK height
           | None => OK float_three
           end)
          = OK match dict_get "building:levels" items with
               | Some v =>
                   match numeric py_float v with
                   | Some levels => float_mul levels float_three
                   | None => float_three
                   end
               | None => float_three
               end) as Hlevels.
  { destruct (dict_get "building:levels" items) as [v|] eqn:Hv; [|reflexivity].
    cbn [bind]. destruct (try_float_in_range _ _ v Hl Hv) as [_ ->].
    now destruct (numeric py_float v). }
  destruct (dict_get "height" items) as [v|] eqn:Hv; cbn [bind option_map].
  - destruct (try_float_in_range _ _ v Hh Hv) as [-> _]. cbn [bind].
    destruct (numeric py_float v); [reflexivity | exact Hlevels].
  - exact Hlevels.
Qed.

(** C1 at an input the height rules miss: a height attribute that is an int
    beyond the range of a float. [float] raises OverflowError, which the
    [except] clause does not name, so no rule is tried after it. *)
Theorem huge_height_raises :
  get_building_height (Dict [("height", Int (10 ^ 309)); ("building:levels", Int 4)])
  = Raise OverflowError.
Proof. vm_compute. reflexivity. Qed.

(** C10 at an input the shape test misses: a Polygon whose exterior ring
    begins with a point entry of no coordinates. The test reads the first
    coordinate of the first point before any point is looked at. *)
Theorem empty_first_point_raises (height : float) :
  process_coordinates (List [List [List []; List [Int 1; Int 2]]]) height
  = Raise IndexError.
Proof. reflexivity. Qed.

(** Within the loop over a ring C10 holds: an entry with fewer than two
    coordinates adds nothing and raises nothing, and an entry with two or
    more adds the row of its first two. *)
Lemma short_points_skipped (height : float) (points : list value) (results : list row) :
  forallb is_list points = true ->
  for_each (append_point height) points results = OK (results ++ ring_rows height points)
  /\ (forall cs, (length cs < 2)%nat -> point_rows height (List cs) = [])
  /\ (forall lon lat more, point_rows height (List (lon :: lat :: more)) = [(lon, lat, height)]).
Proof.
  intros Hpoints. split; [now apply for_each_point|]. split; [|reflexivity].
  intros [|c [|c' cs]] Hlen; try reflexivity. simpl in Hlen. lia.
Qed.

(** ** The run as a whole *)

Lemma draw_no_csv (kind : plot_kind) (points : list row) (output_path : string) :
  forallb (fun ev => negb (is_csv_written ev)) (fst (draw kind points output_path)) = true.
Proof.
  unfold draw. destruct points; [reflexivity|].
  now destruct (scatter_savefig kind _ output_path).
Qed.

Lemma preview_no_csv (points : list row) (output_path : string) :
  forallb (fun ev => negb (is_csv_written ev)) (fst (preview points output_path)) = true.
Proof.
  unfold preview, create_3d_visualization, create_2d_visualization.
  destruct HAS_3D_SUPPORT; cbn [negb]; [|apply draw_no_csv].
  pose proof (draw_no_csv Scatter3D points output_path) as H3.
  pose proof (draw_no_csv Scatter2D points output_path) as H2.
  destruct (draw Scatter3D points output_path) as [out [u|e]]; [exact H3|].
  destruct (draw Scatter2D points output_path) as [out2 r]. cbn [fst] in *.
  rewrite forallb_app, H3. exact H2.
Qed.

(** C9: once the points are collected, the run writes the CSV file once, the
    header first and then one record for each point; the preview writes no
    CSV file; the value returned, whenever one is, is the number of points,
    and one is returned unless the preview raises. With no point the file
    holds the header alone and the run returns 0. *)
Theorem returns_row_count (file_path output_csv_path : string)
  (output_img_path : option string) (geojson_data : value) (building_points : list row) :
  json_load file_path = OK geojson_data ->
  collect_building_points geojson_data = OK building_points ->
  exists rest,
    fst (process_geojson file_path output_csv_path output_img_path)
    = CsvWritten output_csv_path (csv_header :: map csv_record building_points) :: rest
    /\ forallb (fun ev => negb (is_csv_written ev)) rest = true
    /\ length (map csv_record building_points) = length building_points
    /\ (forall n, snd (process_geojson file_path output_csv_path output_img_path) = OK n ->
          n = length building_points)
    /\ snd (process_geojson file_path output_csv_path output_img_path)
       = (_ <- (if truthy_points building_points && truthy_path output_img_path
                then snd (preview building_points (path_text output_img_path))
                else OK tt) ;;
          OK (length building_points))
    /\ (building_points = [] ->
        process_geojson file_path output_csv_path output_img_path
        = ([CsvWritten output_csv_path [csv_header]], OK 0)).
Proof.
  intros Hload Hcollect. unfold process_geojson.
  rewrite Hload. cbn [bind]. rewrite Hcollect.
  destruct building_points as [|p points].
  - exists []. cbn. repeat split; trivial. now intros n [= <-].
  - cbn [truthy_points andb].
    destruct (truthy_path output_img_path).
    + pose proof (preview_no_csv (p :: points) (path_text output_img_path)) as Hno.
      destruct (preview (p :: points) (path_text output_img_path)) as [out [u|e]];
        exists out; cbn [fst snd app bind] in *;
        (repeat split; trivial; try discriminate; try apply length_map);
        now intros n [= <-].
    + exists []. cbn [fst snd app bind].
      repeat split; trivial; try discriminate; try apply length_map.
      now intros n [= <-].
Qed.

(** C8, as the code has it: with 3D support, a 3D plot that raises is caught
    and reported, and the 2D plot is drawn in its place; the run then
    returns the number of points when the 2D plot is saved, and raises what
    the 2D plot raises otherwise. *)
Theorem failed_3d_downgraded (file_path output_csv_path output_img_path : string)
  (geojson_data : value) (building_points : list row) (e : exn) :
  json_load file_path = OK geojson_data ->
  collect_building_points geojson_data = OK building_points ->
  building_points <> [] ->
  output_img_path <> "" ->
  HAS_3D_SUPPORT = true ->
  scatter_savefig Scatter3D building_points output_img_path = Raise e ->
  process_geojson file_path output_csv_path (Some output_img_path)
  = match scatter_savefig Scatter2D building_points output_img_path with
    | OK _ =>
        ([CsvWritten output_csv_path (csv_header :: map csv_record building_points);
          Printed (Failed3D e);
          FigureSaved Scatter2D output_img_path building_points],
         OK (length building_points))
    | Raise e2 =>
        ([CsvWritten output_csv_path (csv_header :: map csv_record building_points);
          Printed (Failed3D e)],
         Raise e2)
    end.
Proof.
  intros Hload Hcollect Hpoints Hpath H3d Hfail. unfold process_geojson.
  rewrite Hload. cbn [bind]. rewrite Hcollect.
  destruct building_points as [|p points]; [contradiction|].
  apply String.eqb_neq in Hpath.
  cbn [truthy_points truthy_path path_text andb]. rewrite Hpath. cbn [negb].
  unfold preview, create_3d_visualization, create_2d_visualization, draw.
  rewrite H3d. cbn [negb]. rewrite Hfail.
  now destruct (scatter_savefig Scatter2D (p :: points) output_img_path).
Qed.

(** ** Beyond the claims: the height rules *)

(** A height attribute that [float] accepts is the height, whatever else the
    mapping holds; the levels attribute is not even read. *)
Theorem height_attribute_wins (items : list (string * value)) (v : value) (f : float) :
  dict_get "height" items = Some v ->
  py_float v = OK f ->
  get_building_height (Dict items) = OK f.
Proof.
  intros Hv Hf. unfold get_building_height.
  cbn [py_contains py_subscript bind]. rewrite Hv. cbn [bind]. now rewrite Hf.
Qed.

Lemma try_float_raises (v : value) (e : exn) :
  try_pass (py_float v) = Raise e ->
  e = OverflowError /\ exists n, v = Int n /\ float_of_int n = None.
Proof.
  destruct v as [| b | n | f | s | l | items]; cbn [py_float try_pass value_or_type_error];
    try discriminate.
  - destruct (float_of_int n) eqn:Hn; [discriminate|].
    cbn. intros [= <-]. split; [reflexivity | now exists n].
  - destruct (float_of_str s); discriminate.
Qed.

Lemma try_scaled_as_float (v : value) :
  try_pass (levels <- py_float v ;; OK (float_mul levels float_three))
  = (r <- try_pass (py_float v) ;;
     OK (option_map (fun levels => float_mul levels float_three) r)).
Proof.
  destruct (py_float v) as [f|e]; [reflexivity|].
  cbn [bind try_pass]. now destruct (value_or_type_error e).
Qed.

Lemma out_of_range (key : string) (items : list (string * value)) (n : Z) :
  dict_get key items = Some (Int n) ->
  float_of_int n = None ->
  within_float_range key items = false.
Proof. unfold within_float_range. now intros -> ->. Qed.

(** On a mapping the height rules raise nothing but OverflowError, and that
    only for a height or levels attribute that is an int beyond the range of
    a float. *)
Theorem height_only_overflows (items : list (string * value)) (e : exn) :
  get_building_height (Dict items) = Raise e ->
  e = OverflowError
  /\ (within_float_range "height" items = false
      \/ within_float_range "building:levels" items = false).
Proof.
  unfold get_building_height. cbn [py_contains py_subscript bind].
  assert (forall r : result float,
            (has_levels <- OK match dict_get "building:levels" items with
                              | Some _ => true
                              | None => false
                              end ;;
             scaled <- (if has_levels : bool
                        then try_pass (x <- match dict_get "building:levels" items with
                                            | Some x => OK x
                                            | None => Raise KeyError
                                            end ;;
                                       levels <- py_float x ;;
                                       OK (float_mul levels float_three))
                        else OK None) ;;
             match scaled with
             | Some height => OK height
             | None => OK float_three
             end) = r ->
            r = Raise e ->
            e = OverflowError /\ within_float_range "building:levels" items = false)
    as Hlevels.
  { intros r <-. cbn [bind].
    destruct (dict_get "building:levels" items) as [v|] eqn:Hv; [|discriminate].
    cbn [bind]. rewrite try_scaled_as_float.
    destruct (try_pass (py_float v)) as [[f|]|e'] eqn:Hf; try discriminate.
    cbn [bind]. intros [= ->].
    destruct (try_float_raises v e Hf) as [-> (n & -> & Hn)].
    split; [reflexivity | exact (out_of_range _ _ n Hv Hn)]. }
  destruct (dict_get "height" items) as [v|] eqn:Hv; cbn [bind].
  - destruct (try_pass (py_float v)) as [[f|]|e'] eqn:Hf; cbn [bind].
    + discriminate.
    + intros H. destruct (Hlevels _ eq_refl H) as [-> Hr]. auto.
    + intros [= ->]. destruct (try_float_raises v e Hf) as [-> (n & -> & Hn)].
      split; [reflexivity | left; exact (out_of_range _ _ n Hv Hn)].
  - intros H. destruct (Hlevels _ eq_refl H) as [-> Hr]. auto.
Qed.

(** Properties that are not a mapping: a list or a text gives 3.0, since the
    subscript by a key raises the TypeError the rules catch; [None], a bool
    or a number raises TypeError at the first [in], outside any [try]. *)
Theorem properties_not_a_mapping (properties : value) :
  is_dict properties = false ->
  get_building_height properties
  = if is_list properties || is_str properties then OK float_three else Raise TypeError.
Proof.
  intros Hdict. unfold get_building_height.
  destruct properties as [| b | n | f | s | l | items]; try discriminate; try reflexivity;
    cbn [py_contains py_subscript bind is_list is_str orb].
  - destruct (str_contains "height" s); cbn [bind try_pass value_or_type_error];
      now destruct (str_contains "building:levels" s).
  - destruct (existsb (fun x => eq_str x "height") l);
      cbn [bind try_pass value_or_type_error];
      now destruct (existsb (fun x => eq_str x "building:levels") l).
Qed.

(** ** Beyond the claims: the flattening *)

(** A loop maps along a change of state that each step of its body maps
    along. *)
Lemma for_each_mapped {A S T : Type} (g : S -> T)
  (body : S -> A -> result S) (body' : T -> A -> result T) :
  (forall s x, body' (g s) x = result_map g (body s x)) ->
  forall items s, for_each body' items (g s) = result_map g (for_each body items s).
Proof.
  intros Hstep items.
  induction items as [|x rest IH]; intros s; cbn [for_each]; [reflexivity|].
  rewrite Hstep. destruct (body s x) as [s'|e]; cbn [result_map bind]; [apply IH | reflexivity].
Qed.

Lemma append_point_relabel (h h' : float) (results : list row) (point : value) :
  append_point h' (map (with_height h') results) point
  = result_map (map (with_height h')) (append_point h results point).
Proof.
  unfold append_point.
  destruct (py_len point) as [n|e]; cbn [bind result_map]; [|reflexivity].
  destruct (2 <=? n)%nat; [|reflexivity].
  destruct (py_index point 0) as [lon|e]; cbn [bind result_map]; [|reflexivity].
  destruct (py_index point 1) as [lat|e]; cbn [bind result_map]; [|reflexivity].
  now rewrite map_app.
Qed.

Lemma ring_points_relabel (h h' : float) (ring : value) (results : list row) :
  ring_points h' ring (map (with_height h') results)
  = result_map (map (with_height h')) (ring_points h ring results).
Proof.
  unfold ring_points. destruct (py_iter ring) as [points|e]; cbn [bind]; [|reflexivity].
  apply (for_each_mapped (map (with_height h'))), append_point_relabel.
Qed.

Lemma append_polygon_relabel (h h' : float) (results : list row) (polygon : value) :
  append_polygon h' (map (with_height h') results) polygon
  = result_map (map (with_height h')) (append_polygon h results polygon).
Proof.
  unfold append_polygon.
  destruct (if truthy polygon then _ else _) as [[|]|e]; cbn [bind result_map]; trivial.
  destruct (py_index polygon 0) as [ring|e]; cbn [bind result_map]; [|reflexivity].
  apply ring_points_relabel.
Qed.

Lemma process_coordinates_relabel (coords : value) (h h' : float) :
  process_coordinates coords h'
  = result_map (map (with_height h')) (process_coordinates coords h).
Proof.
  unfold process_coordinates.
  destruct (simple_polygon_test coords) as [[|]|e]; cbn [bind result_map]; trivial.
  - destruct (py_index coords 0) as [ring|e]; cbn [bind result_map]; [|reflexivity].
    apply (ring_points_relabel h h' ring []).
  - destruct (py_iter coords) as [polygons|e]; cbn [bind result_map]; [|reflexivity].
    apply (for_each_mapped (map (with_height h')) (append_polygon h) (append_polygon h')
             (append_polygon_relabel h h') polygons []).
Qed.

Lemma map_with_height (height : float) (rows : list row) :
  Forall (fun r => row_height r = height) (map (with_height height) rows).
Proof. induction rows; constructor; trivial. Qed.

(** Whatever the coordinates are, every row [process_coordinates] returns
    carries the height it was given. *)
Theorem rows_carry_height (coords : value) (height : float) (rows : list row) :
  process_coordinates coords height = OK rows ->
  Forall (fun r => row_height r = height) rows.
Proof.
  intros H. rewrite (process_coordinates_relabel coords height height) in H.
  destruct (process_coordinates coords height) as [rows'|e]; [|discriminate].
  injection H as <-. apply map_with_height.
Qed.

(** The flattening does not look at the height: with another height
    [process_coordinates] raises the same exception or returns the same
    points in the same order, the new height in place of the old. *)
Theorem flattening_ignores_height (coords : value) (h h' : float) :
  process_coordinates coords h'
  = result_map (map (with_height h')) (process_coordinates coords h).
Proof. apply process_coordinates_relabel. Qed.

Lemma for_each_polygon (height : float) (parts : list (list value * list value)) :
  forallb (fun part => forallb is_position (fst part)) parts = true ->
  forall results,
    for_each (append_polygon height) (map polygon_of parts) results
    = OK (results ++ flat_map (fun part => ring_rows height (fst part)) parts).
Proof.
  induction parts as [|[ring holes] rest IH]; cbn [map flat_map forallb for_each fst];
    intros H results.
  - now rewrite app_nil_r.
  - apply andb_prop in H as [Hring Hrest].
    change (polygon_of (ring, holes)) with (List (List ring :: holes)).
    unfold append_polygon at 1.
    cbn [truthy py_len length Nat.ltb Nat.leb bind py_index nth_error].
    unfold ring_points. cbn [py_iter bind].
    rewrite for_each_point by now apply position_is_list.
    cbn [bind]. rewrite (IH Hrest). now rewrite <- app_assoc.
Qed.

(** The other branch of [process_coordinates]: handed the polygons of a
    MultiPolygon as they stand, the first exterior ring beginning with a
    point entry, it returns the rows of every exterior ring, polygon after
    polygon, and reads no hole. A later ring may even be empty. *)
Theorem polygons_as_they_stand (p : value) (ring holes : list value)
  (rest : list (list value * list value)) (height : float) :
  is_position p = true ->
  forallb is_position ring = true ->
  forallb (fun part => forallb is_position (fst part)) rest = true ->
  process_coordinates (List (map polygon_of ((p :: ring, holes) :: rest))) height
  = OK (flat_map (fun part => ring_rows height (fst part)) ((p :: ring, holes) :: rest)).
Proof.
  intros Hp Hring Hrest.
  unfold process_coordinates, simple_polygon_test.
  cbn [map py_len length Nat.ltb Nat.leb bind py_index nth_error polygon_of fst snd is_list].
  destruct p as [| | | | |cs|]; try discriminate.
  cbn [is_list negb bind py_iter].
  apply (for_each_polygon height ((List cs :: ring, holes) :: rest)).
  cbn [forallb fst]. now rewrite Hp, Hring, Hrest.
Qed.

(** ** Beyond the claims: a feature *)

Lemma for_each_keeps {A S : Type} (P : S -> Prop) (body : S -> A -> result S) :
  (forall s x s', P s -> body s x = OK s' -> P s') ->
  forall items s s', P s -> for_each body items s = OK s' -> P s'.
Proof.
  intros Hstep items.
  induction items as [|x rest IH]; cbn [for_each]; intros s s' Hs H.
  - now injection H as <-.
  - destruct (body s x) as [s1|e] eqn:Hx; [|discriminate].
    exact (IH s1 s' (Hstep s x s1 Hs Hx) H).
Qed.

Lemma extend_with_geometry_height (geometry : value) (height : float) (rows : list row) :
  extend_with_geometry geometry height [] = OK rows ->
  Forall (fun r => row_height r = height) rows.
Proof.
  unfold extend_with_geometry.
  destruct (py_get geometry "type" PyNone) as [t|e]; cbn [bind]; [|discriminate].
  destruct (eq_str t "Polygon").
  - destruct (py_get geometry "coordinates" (List [])) as [coords|e]; cbn [bind];
      [|discriminate].
    destruct (process_coordinates coords height) as [points|e] eqn:Hp; [|discriminate].
    cbn [bind app]. intros [= <-].
    rewrite (process_coordinates_relabel coords height height) in Hp.
    destruct (process_coordinates coords height); [|discriminate].
    injection Hp as <-. apply map_with_height.
  - destruct (eq_str t "MultiPolygon"); [|intros [= <-]; constructor].
    destruct (py_get geometry "coordinates" (List [])) as [coords|e]; cbn [bind];
      [|discriminate].
    destruct (py_iter coords) as [polygons|e]; cbn [bind]; [|discriminate].
    apply (for_each_keeps (Forall (fun r => row_height r = height))); [|constructor].
    intros s x s' Hs. unfold extend_with_polygon.
    destruct (process_coordinates (List [x]) height) as [points|e] eqn:Hp; [|discriminate].
    cbn [bind]. intros [= <-]. apply Forall_app. split; [exact Hs|].
    rewrite (process_coordinates_relabel _ height height) in Hp.
    destruct (process_coordinates (List [x]) height); [|discriminate].
    injection Hp as <-. apply map_with_height.
Qed.

(** Whatever a feature adds to the points collected so far comes after them
    and, when it adds any row, carries one height: the one the height rules
    give for its properties. *)
Theorem feature_rows_share_height (items : list (string * value)) (acc out : list row) :
  process_feature acc (Dict items) = OK out ->
  exists rows,
    out = acc ++ rows
    /\ (rows = []
        \/ exists height,
             get_building_height (feature_properties items) = OK height
             /\ Forall (fun r => row_height r = height) rows).
Proof.
  rewrite process_feature_dict.
  destruct (polygon_geometry (feature_geometry items)) as [[|]|e]; cbn [bind];
    try discriminate.
  - destruct (get_building_height (feature_properties items)) as [height|e]; cbn [bind];
      [|discriminate].
    rewrite extend_with_geometry_acc.
    destruct (extend_with_geometry (feature_geometry items) height []) as [rows|e] eqn:Hrows;
      [|discriminate].
    cbn [bind]. intros [= <-]. exists rows. split; [reflexivity|].
    right. exists height. split; [reflexivity|].
    exact (extend_with_geometry_height _ _ _ Hrows).
  - intros [= <-]. exists []. split; [now rewrite app_nil_r | now left].
Qed.

Lemma entry_ring_shape (ring : list value) :
  entry_ring ring = true ->
  exists p points, ring = p :: points /\ is_list p = true /\ forallb is_list points = true.
Proof.
  destruct ring as [|p points]; [discriminate|].
  cbn [entry_ring forallb]. intros H. apply andb_prop in H as [Hp Hpoints].
  now exists p, points.
Qed.

Lemma extend_with_entry_rings (height : float) (parts : list (list value * list value)) :
  forallb (fun part => entry_ring (fst part)) parts = true ->
  forall acc,
    for_each (extend_with_polygon height) (map polygon_of parts) acc
    = OK (acc ++ flat_map (fun part => ring_rows height (fst part)) parts).
Proof.
  induction parts as [|[ring holes] rest IH]; cbn [map flat_map forallb for_each fst];
    intros H acc.
  - now rewrite app_nil_r.
  - apply andb_prop in H as [Hring Hrest].
    destruct (entry_ring_shape ring Hring) as (p & points & -> & Hp & Hpoints).
    change (polygon_of (p :: points, holes)) with (List (List (p :: points) :: holes)).
    unfold extend_with_polygon at 1.
    rewrite process_coordinates_wrapped by trivial. cbn [bind].
    rewrite (IH Hrest). now rewrite <- app_assoc.
Qed.

Lemma length_ring_rows (height : float) (points : list value) :
  length (ring_rows height points) = length (filter two_coordinates points).
Proof.
  unfold ring_rows.
  induction points as [|p rest IH]; [reflexivity|].
  cbn [flat_map filter]. rewrite length_app, IH.
  destruct p as [| | | | |cs|]; try reflexivity.
  now destruct cs as [|lon [|lat more]].
Qed.

(** A MultiPolygon never stops at a short point: when every exterior ring
    has an entry and every entry is a list, of any length, the feature adds
    the rows of the entries with two coordinates or more, ring after ring,
    an empty first entry included. *)
Theorem multipolygon_short_points (items g : list (string * value))
  (parts : list (list value * list value)) (height : float) (acc : list row) :
  dict_get "geometry" items = Some (Dict g) ->
  dict_get "type" g = Some (Str "MultiPolygon") ->
  dict_get "coordinates" g = Some (List (map polygon_of parts)) ->
  forallb (fun part => entry_ring (fst part)) parts = true ->
  get_building_height (feature_properties items) = OK height ->
  process_feature acc (Dict items)
  = OK (acc ++ flat_map (fun part => ring_rows height (fst part)) parts)
  /\ length (flat_map (fun part => ring_rows height (fst part)) parts)
     = list_sum (map (fun part => length (filter two_coordinates (fst part))) parts).
Proof.
  intros Hgeom Htype Hcoords Hrings Hheight. split.
  - rewrite process_feature_dict. unfold feature_geometry. rewrite Hgeom.
    rewrite (polygon_geometry_typed g _ Htype). cbn [String.eqb Ascii.eqb Bool.eqb orb bind].
    rewrite Hheight. cbn [bind].
    unfold extend_with_geometry. cbn [py_get bind]. rewrite Htype, Hcoords.
    cbn [eq_str String.eqb Ascii.eqb Bool.eqb py_iter bind].
    now apply extend_with_entry_rings.
  - clear. induction parts as [|[ring holes] rest IH]; [reflexivity|].
    cbn [flat_map map list_sum fst]. now rewrite length_app, IH, length_ring_rows.
Qed.

(** A Polygon whose exterior ring begins with an entry that has a first
    coordinate, not itself a list, and whose other entries are lists of any
    length, adds the rows of the entries with two coordinates or more. *)
Theorem polygon_short_points (items g : list (string * value)) (c : value)
  (cs points holes : list value) (height : float) (acc : list row) :
  dict_get "geometry" items = Some (Dict g) ->
  dict_get "type" g = Some (Str "Polygon") ->
  dict_get "coordinates" g = Some (List (List (List (c :: cs) :: points) :: holes)) ->
  is_list c = false ->
  forallb is_list points = true ->
  get_building_height (feature_properties items) = OK height ->
  process_feature acc (Dict items) = OK (acc ++ ring_rows height (List (c :: cs) :: points))
  /\ length (ring_rows height (List (c :: cs) :: points))
     = length (filter two_coordinates (List (c :: cs) :: points)).
Proof.
  intros Hgeom Htype Hcoords Hc Hpoints Hheight. split; [|apply length_ring_rows].
  rewrite process_feature_dict. unfold feature_geometry. rewrite Hgeom.
  rewrite (polygon_geometry_typed g _ Htype). cbn [String.eqb Ascii.eqb Bool.eqb orb bind].
  rewrite Hheight. cbn [bind].
  unfold extend_with_geometry. cbn [py_get bind]. rewrite Htype, Hcoords.
  cbn [eq_str String.eqb Ascii.eqb Bool.eqb].
  now rewrite process_coordinates_polygon.
Qed.

(** A Polygon or MultiPolygon with no coordinates member, or with an empty
    one, adds no row once its height is resolved. *)
Theorem missing_coordinates_no_rows (items g : list (string * value)) (t : string)
  (height : float) (acc : list row) :
  dict_get "geometry" items = Some (Dict g) ->
  dict_get "type" g = Some (Str t) ->
  String.eqb t "Polygon" || String.eqb t "MultiPolygon" = true ->
  no_coordinates g = true ->
  get_building_height (feature_properties items) = OK height ->
  process_feature acc (Dict items) = OK acc.
Proof.
  intros Hgeom Htype Ht Hnone Hheight.
  rewrite process_feature_dict. unfold feature_geometry. rewrite Hgeom.
  rewrite (polygon_geometry_typed g _ Htype), Ht. cbn [bind].
  rewrite Hheight. cbn [bind].
  unfold extend_with_geometry. cbn [py_get bind eq_str]. rewrite Htype.
  unfold no_coordinates in Hnone.
  assert (match dict_get "coordinates" g with Some x => x | None => List [] end = List [])
    as -> by (destruct (dict_get "coordinates" g) as [[| | | | |[|]|]|]; now try discriminate).
  cbn. rewrite app_nil_r.
  now destruct (String.eqb t "Polygon"), (String.eqb t "MultiPolygon").
Qed.

(** ** Beyond the claims: the run *)

Lemma map_result_stops {A B : Type} (f : A -> result B) (before after : list A) (bad : A)
  (ys : list B) (e : exn) :
  map_result f before = OK ys ->
  f bad = Raise e ->
  map_result f (before ++ bad :: after) = Raise e.
Proof.
  revert ys. induction before as [|x rest IH]; cbn [map_result app]; intros ys Hys Hbad.
  - now rewrite Hbad.
  - destruct (f x) as [y|e']; cbn [bind] in *; [|discriminate].
    destruct (map_result f rest) as [ys'|e']; [|discriminate].
    now rewrite (IH ys' eq_refl Hbad).
Qed.

(** One feature that raises loses every row: whatever the features before
    it yielded, the run raises what that feature raises and writes no CSV
    file, draws no figure and prints nothing. *)
Theorem bad_feature_loses_all (file_path output_csv_path : string)
  (output_img_path : option string) (items : list (string * value))
  (before after : list value) (bad : value) (yields : list (list row)) (e : exn) :
  json_load file_path = OK (Dict items) ->
  dict_get "features" items = Some (List (before ++ bad :: after)) ->
  map_result (process_feature []) before = OK yields ->
  process_feature [] bad = Raise e ->
  process_geojson file_path output_csv_path output_img_path = ([], Raise e).
Proof.
  intros Hload Hfeatures Hbefore Hbad. unfold process_geojson.
  rewrite Hload. cbn [bind]. unfold collect_building_points.
  cbn [py_get bind]. rewrite Hfeatures. cbn [py_iter bind].
  rewrite (for_each_appends _ _ process_feature_acc).
  now rewrite (map_result_stops _ _ _ _ _ _ Hbefore Hbad).
Qed.

(** A document with no features member is an empty collection: the CSV file
    holds the header alone, nothing is drawn, and the run returns 0. *)
Theorem missing_features_header_only (file_path output_csv_path : string)
  (output_img_path : option string) (items : list (string * value)) :
  json_load file_path = OK (Dict items) ->
  dict_get "features" items = None ->
  process_geojson file_path output_csv_path output_img_path
  = ([CsvWritten output_csv_path [csv_header]], OK 0).
Proof.
  intros Hload Hfeatures. unfold process_geojson.
  rewrite Hload. cbn [bind]. unfold collect_building_points.
  cbn [py_get bind]. now rewrite Hfeatures.
Qed.

Lemma draw_figure (kind : plot_kind) (points : list row) (output_path : string) :
  Forall (figure_of output_path points) (fst (draw kind points output_path))
  /\ (length (filter is_figure_saved (fst (draw kind points output_path))) <= 1)%nat
  /\ (forall e, snd (draw kind points output_path) = Raise e ->
        fst (draw kind points output_path) = []).
Proof.
  unfold draw. destruct points as [|p points].
  - cbn. repeat split; [constructor | lia].
  - destruct (scatter_savefig kind (p :: points) output_path); cbn.
    + repeat split; [repeat constructor | lia | discriminate].
    + repeat split; [constructor | lia].
Qed.

Lemma preview_figure (points : list row) (output_path : string) :
  Forall (figure_of output_path points) (fst (preview points output_path))
  /\ (length (filter is_figure_saved (fst (preview points output_path))) <= 1)%nat.
Proof.
  unfold preview, create_3d_visualization, create_2d_visualization.
  destruct (draw_figure Scatter2D points output_path) as (H2 & L2 & _).
  destruct HAS_3D_SUPPORT; cbn [negb]; [|now split].
  destruct (draw_figure Scatter3D points output_path) as (H3 & L3 & E3).
  destruct (draw Scatter3D points output_path) as [out [u|e]]; [now split|].
  cbn [fst snd] in *. rewrite (E3 e eq_refl).
  destruct (draw Scatter2D points output_path) as [out2 r]. cbn [fst app] in *.
  split; [constructor; [exact I | exact H2] | exact L2].
Qed.

(** The preview shows what the CSV file holds: a run saves at most one
    figure, and the figure it saves is drawn at the image path from exactly
    the points collected, the ones written to the CSV file. *)
Theorem figure_shows_csv_points (file_path output_csv_path : string)
  (output_img_path : option string) (geojson_data : value) (building_points : list row) :
  json_load file_path = OK geojson_data ->
  collect_building_points geojson_data = OK building_points ->
  Forall (figure_of (path_text output_img_path) building_points)
    (fst (process_geojson file_path output_csv_path output_img_path))
  /\ (length (filter is_figure_saved
                (fst (process_geojson file_path output_csv_path output_img_path))) <= 1)%nat.
Proof.
  intros Hload Hcollect. unfold process_geojson.
  rewrite Hload. cbn [bind]. rewrite Hcollect.
  destruct (truthy_points building_points && truthy_path output_img_path).
  - destruct (preview_figure building_points (path_text output_img_path)) as [Hall Hlen].
    destruct (preview building_points (path_text output_img_path)) as [out [u|e]];
      cbn [fst app filter is_figure_saved] in *; (split; [constructor; [exact I | exact Hall] | exact Hlen]).
  - cbn. split; [repeat constructor | lia].
Qed.

(** With 3D support, a 3D plot that is saved is the only figure of the run:
    the 2D plot is not drawn, whatever it would have done. *)
Theorem plot_3d_saved (file_path output_csv_path output_img_path : string)
  (geojson_data : value) (building_points : list row) (u : unit) :
  json_load file_path = OK geojson_data ->
  collect_building_points geojson_data = OK building_points ->
  building_points <> [] ->
  output_img_path <> "" ->
  HAS_3D_SUPPORT = true ->
  scatter_savefig Scatter3D building_points output_img_path = OK u ->
  process_geojson file_path output_csv_path (Some output_img_path)
  = ([CsvWritten output_csv_path (csv_header :: map csv_record building_points);
      FigureSaved Scatter3D output_img_path building_points],
     OK (length building_points)).
Proof.
  intros Hload Hcollect Hpoints Hpath H3d Hsaved. unfold process_geojson.
  rewrite Hload. cbn [bind]. rewrite Hcollect.
  destruct building_points as [|p points]; [contradiction|].
  apply String.eqb_neq in Hpath.
  cbn [truthy_points truthy_path path_text andb]. rewrite Hpath. cbn [negb].
  unfold preview, create_3d_visualization, draw.
  rewrite H3d. cbn [negb]. now rewrite Hsaved.
Qed.

(** Without 3D support the 2D plot is the preview, and nothing guards it:
    saved, it is the one figure of the run; raising, it ends the run after
    the CSV file is written. *)
Theorem plot_2d_without_3d (file_path output_csv_path output_img_path : string)
  (geojson_data : value) (building_points : list row) :
  json_load file_path = OK geojson_data ->
  collect_building_points geojson_data = OK building_points ->
  building_points <> [] ->
  output_img_path <> "" ->
  HAS_3D_SUPPORT = false ->
  process_geojson file_path output_csv_path (Some output_img_path)
  = match scatter_savefig Scatter2D building_points output_img_path with
    | OK _ =>
        ([CsvWritten output_csv_path (csv_header :: map csv_record building_points);
          FigureSaved Scatter2D output_img_path building_points],
         OK (length building_points))
    | Raise e =>
        ([CsvWritten output_csv_path (csv_header :: map csv_record building_points)],
         Raise e)
    end.
Proof.
  intros Hload Hcollect Hpoints Hpath H3d. unfold process_geojson.
  rewrite Hload. cbn [bind]. rewrite Hcollect.
  destruct building_points as [|p points]; [contradiction|].
  apply String.eqb_neq in Hpath.
  cbn [truthy_points truthy_path path_text andb]. rewrite Hpath. cbn [negb].
  unfold preview, create_2d_visualization, draw. rewrite H3d.
  now destruct (scatter_savefig Scatter2D (p :: points) output_img_path).
Qed.

(** The table is rectangular: any CSV file a run writes is written at the
    CSV path, and each of its records, the header included, has three
    cells. *)
Theorem csv_three_columns (file_path output_csv_path : string)
  (output_img_path : option string) (path : string) (records : list (list value)) :
  In (CsvWritten path records)
    (fst (process_geojson file_path output_csv_path output_img_path)) ->
  path = output_csv_path /\ Forall (fun record => length record = 3) records.
Proof.
  unfold process_geojson.
  destruct (geojson_data <- json_load file_path ;; collect_building_points geojson_data)
    as [building_points|e]; [|intros []].
  assert (Forall (fun record => length record = 3)
            (csv_header :: map csv_record building_points)) as Hcells.
  { constructor; [reflexivity|]. apply Forall_forall. intros record Hin.
    apply in_map_iff in Hin as ([[lon lat] height] & <- & _). reflexivity. }
  assert (forall out,
            forallb (fun ev => negb (is_csv_written ev)) out = true ->
            In (CsvWritten path records)
              (CsvWritten output_csv_path (csv_header :: map csv_record building_points)
               :: out) ->
            path = output_csv_path /\ Forall (fun record => length record = 3) records)
    as Hhead.
  { intros out Hout [[= <- <-]|Hin]; [now split|].
    rewrite forallb_forall in Hout. now specialize (Hout _ Hin). }
  destruct (truthy_points building_points && truthy_path output_img_path).
  - pose proof (preview_no_csv building_points (path_text output_img_path)) as Hno.
    destruct (preview building_points (path_text output_img_path)) as [out [u|e]];
      cbn [fst app] in *; now apply Hhead.
  - cbn [fst]. now apply (Hhead []).
Qed.

(** The number returned adds up feature by feature: with no image path the
    run writes the header and the rows each feature yields on its own, in
    order, and returns the sum of their counts. *)
Theorem count_is_sum_of_features (file_path output_csv_path : string)
  (items : list (string * value)) (features : list value) (yields : list (list row)) :
  json_load file_path = OK (Dict items) ->
  dict_get "features" items = Some (List features) ->
  map_result (process_feature []) features = OK yields ->
  process_geojson file_path output_csv_path None
  = ([CsvWritten output_csv_path (csv_header :: map csv_record (concat yields))],
     OK (list_sum (map (@length row) yields))).
Proof.
  intros Hload Hfeatures Hyields. unfold process_geojson.
  rewrite Hload. cbn [bind]. unfold collect_building_points.
  cbn [py_get bind]. rewrite Hfeatures. cbn [py_iter bind].
  rewrite (for_each_appends _ _ process_feature_acc), Hyields. cbn [bind app].
  cbn [truthy_path]. rewrite andb_false_r. now rewrite length_concat.
Qed.

(** A properties member that is present and null is not defaulted: it stops
    the run with TypeError when the geometry is a polygon type, and is never
    looked at otherwise. *)
Theorem null_properties_raise (items : list (string * value)) (acc : list row) :
  dict_get "properties" items = Some PyNone ->
  process_feature acc (Dict items)
  = (wanted <- polygon_geometry (feature_geometry items) ;;
     if wanted : bool then Raise TypeError else OK acc).
Proof.
  intros Hnull. rewrite process_feature_dict. unfold feature_properties. rewrite Hnull.
  now destruct (polygon_geometry (feature_geometry items)) as [[|]|].
Qed.

End Processor.

(** ** The specification's examples *)

Example float_three_is_3 : float_of_int 3 = Some float_three.
Proof. reflexivity. Qed.

Example float_one_is_1 : float_of_int 1 = Some float_one.
Proof. reflexivity. Qed.

Example float_twelve_is_12 : float_of_int 12 = Some float_twelve.
Proof. reflexivity. Qed.

Example height_12 :
  get_building_height decimal_float (Dict [("height", Int 12); ("building:levels", Int 2)])
  = OK float_twelve.
Proof. reflexivity. Qed.

Example levels_4 :
  get_building_height decimal_float (Dict [("building:levels", Str "4")]) = OK float_twelve.
Proof. reflexivity. Qed.

Example neither_attribute :
  get_building_height decimal_float (Dict [("name", Str "shed")]) = OK float_three.
Proof. reflexivity. Qed.

Example height_not_a_number :
  get_building_height decimal_float
    (Dict [("height", Str "tall"); ("building:levels", Int 4)])
  = OK float_twelve.
Proof. reflexivity. Qed.

Example sample_document_order :
  collect_building_points decimal_float sample_document
  = OK (ring_rows float_twelve square
        ++ ring_rows float_twelve square ++ ring_rows float_twelve strip).
Proof. reflexivity. Qed.

Example null_properties :
  process_feature decimal_float []
    (Dict (("properties", PyNone) :: plain_feature))
  = Raise TypeError.
Proof. reflexivity. Qed.

Example empty_document_run :
  process_geojson decimal_float (fun _ => OK empty_document) true flat_figures_only
    "export.geojson" "buildings.csv" (Some "preview.png")
  = ([CsvWritten "buildings.csv" [csv_header]], OK 0).
Proof. reflexivity. Qed.

Example sample_document_points :
  option_map (@length row)
    (match collect_building_points decimal_float sample_document with
     | OK points => Some points
     | Raise _ => None
     end)
  = Some 14.
Proof. reflexivity. Qed.

(** ** The theorems at the sample documents *)

Lemma height_precedence_witness :
  get_building_height decimal_float
    (Dict [("height", Str "tall"); ("building:levels", Int 4)])
  = OK (height_by_precedence (py_float decimal_float)
          [("height", Str "tall"); ("building:levels", Int 4)]).
Proof.
  apply (height_precedence decimal_float
           [("height", Str "tall"); ("building:levels", Int 4)]); reflexivity.
Defined.

Lemma polygon_feature_rows_witness :
  process_feature decimal_float [] (Dict square_feature)
  = OK ([] ++ ring_rows float_twelve square)
  /\ length (ring_rows float_twelve square) = length square
  /\ Forall (fun r => row_height r = float_twelve) (ring_rows float_twelve square).
Proof.
  apply (polygon_feature_rows decimal_float square_feature square_geometry
           square [List triangle] float_twelve []); reflexivity.
Defined.

(** C2 as it is written fails: a ring of two point entries, one of them with
    a single coordinate, adds one row; and a Polygon whose exterior ring has
    no point adds no row because the run stops with IndexError. *)
Lemma polygon_rows_counterexample :
  length short_ring = 2
  /\ process_feature decimal_float [] (Dict (polygon_feature_of [List short_ring]))
     = OK [(Int 1, Int 2, float_three)]
  /\ process_feature decimal_float [] (Dict (polygon_feature_of [List []]))
     = Raise IndexError.
Proof. repeat split. Qed.

Lemma multipolygon_feature_rows_witness :
  process_feature decimal_float [] (Dict two_parts_feature)
  = OK ([] ++ flat_map (fun part => ring_rows float_twelve (fst part)) two_parts)
  /\ length (flat_map (fun part => ring_rows float_twelve (fst part)) two_parts)
     = list_sum (map (fun part => length (fst part)) two_parts)
  /\ Forall (fun r => row_height r = float_twelve)
       (flat_map (fun part => ring_rows float_twelve (fst part)) two_parts).
Proof.
  apply (multipolygon_feature_rows decimal_float two_parts_feature two_parts_geometry
           two_parts float_twelve []); reflexivity.
Defined.

(** C3 as it is written fails: rings of two and of four point entries, the
    first with an entry of a single coordinate, add five rows and not six;
    and a MultiPolygon with a ring of no point stops the run. *)
Lemma multipolygon_rows_counterexample :
  list_sum (map (@length value) [short_ring; strip]) = 6
  /\ option_map (@length row)
       (match process_feature decimal_float []
                (Dict (multipolygon_feature_of [List [List short_ring]; List [List strip]]))
        with OK rows => Some rows | Raise _ => None end)
     = Some 5
  /\ process_feature decimal_float []
       (Dict (multipolygon_feature_of [List [List strip]; List [List []]]))
     = Raise IndexError.
Proof. repeat split. Qed.

Lemma holes_ignored_witness :
  process_coordinates (List [List square; List triangle]) float_three
  = process_coordinates (List [List square]) float_three
  /\ extend_with_polygon float_three [] (List [List square; List triangle])
     = extend_with_polygon float_three [] (List [List square])
  /\ (forall rows,
        process_coordinates (List [List square; List triangle]) float_three = OK rows ->
        rows = exterior_rows float_three (List square))
  /\ (forall rows,
        extend_with_polygon float_three [] (List [List square; List triangle]) = OK rows ->
        rows = [] ++ exterior_rows float_three (List square)).
Proof.
  apply (holes_ignored (List square) [List triangle] float_three []); reflexivity.
Defined.

Lemma other_geometry_no_rows_witness :
  process_feature decimal_float [] (Dict point_feature) = OK [].
Proof.
  apply (other_geometry_no_rows decimal_float point_feature point_geometry []); reflexivity.
Defined.


Lemma returns_row_count_witness :
  exists rest,
    fst (process_geojson decimal_float (fun _ => OK sample_document) true flat_figures_only
           "export.geojson" "buildings.csv" (Some "preview.png"))
    = CsvWritten "buildings.csv"
        (csv_header
         :: map csv_record
              (ring_rows float_twelve square ++ ring_rows float_twelve square
               ++ ring_rows float_twelve strip)) :: rest
    /\ snd (process_geojson decimal_float (fun _ => OK sample_document) true flat_figures_only
              "export.geojson" "buildings.csv" (Some "preview.png"))
       = OK 14.
Proof.
  destruct (returns_row_count decimal_float (fun _ => OK sample_document) true
              flat_figures_only "export.geojson" "buildings.csv" (Some "preview.png")
              sample_document
              (ring_rows float_twelve square ++ ring_rows float_twelve square
               ++ ring_rows float_twelve strip) eq_refl eq_refl)
    as (rest & Hfst & _ & _ & _ & Hsnd & _).
  exists rest. split; [exact Hfst | rewrite Hsnd; reflexivity].
Defined.

Lemma failed_3d_downgraded_witness :
  process_geojson decimal_float (fun _ => OK sample_document) true flat_figures_only
    "export.geojson" "buildings.csv" (Some "preview.png")
  = (let points :=
       ring_rows float_twelve square ++ ring_rows float_twelve square
       ++ ring_rows float_twelve strip in
     ([CsvWritten "buildings.csv" (csv_header :: map csv_record points);
       Printed (Failed3D (LibraryError "projection"));
       FigureSaved Scatter2D "preview.png" points],
      OK 14)).
Proof.
  apply (failed_3d_downgraded decimal_float (fun _ => OK sample_document) true
           flat_figures_only "export.geojson" "buildings.csv" "preview.png"
           sample_document
           (ring_rows float_twelve square ++ ring_rows float_twelve square
            ++ ring_rows float_twelve strip) (LibraryError "projection"));
    try reflexivity; discriminate.
Defined.

(** C8 as it is written fails: without 3D support the 2D plot is the only
    one and what it raises ends the run; with 3D support the 2D plot drawn
    after a failed 3D plot is not guarded either. *)
Lemma plot_failure_counterexample :
  snd (process_geojson decimal_float (fun _ => OK sample_document) false no_figure
         "export.geojson" "buildings.csv" (Some "preview.png"))
  = Raise (LibraryError "savefig")
  /\ snd (process_geojson decimal_float (fun _ => OK sample_document) true no_figure
            "export.geojson" "buildings.csv" (Some "preview.png"))
     = Raise (LibraryError "savefig").
Proof. split; reflexivity. Qed.

Lemma short_points_skipped_witness :
  for_each (append_point float_three) short_ring [] = OK ([] ++ ring_rows float_three short_ring)
  /\ (forall cs, (length cs < 2)%nat -> point_rows float_three (List cs) = [])
  /\ (forall lon lat more,
        point_rows float_three (List (lon :: lat :: more)) = [(lon, lat, float_three)]).
Proof.
  apply (short_points_skipped float_three short_ring []); reflexivity.
Defined.

(** ** The properties beyond the claims at the sample documents *)

Lemma height_attribute_wins_witness :
  get_building_height decimal_float
    (Dict [("height", Str "12"); ("building:levels", Int (10 ^ 309))])
  = OK float_twelve.
Proof.
  apply (height_attribute_wins decimal_float
           [("height", Str "12"); ("building:levels", Int (10 ^ 309))] (Str "12"));
    reflexivity.
Defined.

Lemma height_only_overflows_witness :
  OverflowError = OverflowError
  /\ (within_float_range "height" [("height", Str "tall"); ("building:levels", Int (10 ^ 309))]
      = false
      \/ within_float_range "building:levels"
           [("height", Str "tall"); ("building:levels", Int (10 ^ 309))]
         = false).
Proof.
  apply (height_only_overflows decimal_float
           [("height", Str "tall"); ("building:levels", Int (10 ^ 309))]).
  vm_compute. reflexivity.
Defined.

Lemma properties_not_a_mapping_witness :
  get_building_height decimal_float (List [Str "height"; Int 12])
  = (if is_list (List [Str "height"; Int 12]) || is_str (List [Str "height"; Int 12])
     then OK float_three
     else Raise TypeError).
Proof.
  apply (properties_not_a_mapping decimal_float (List [Str "height"; Int 12])).
  reflexivity.
Defined.

Lemma rows_carry_height_witness :
  Forall (fun r => row_height r = float_twelve) (ring_rows float_twelve square).
Proof.
  apply (rows_carry_height (List [List square; List triangle]) float_twelve).
  reflexivity.
Defined.

Lemma polygons_as_they_stand_witness :
  process_coordinates
    (List (map polygon_of ((position 0 0 :: tl square, [List triangle])
                           :: [(strip, []); ([], [List triangle])])))
    float_three
  = OK (flat_map (fun part => ring_rows float_three (fst part))
          ((position 0 0 :: tl square, [List triangle])
           :: [(strip, []); ([], [List triangle])])).
Proof.
  apply (polygons_as_they_stand (position 0 0) (tl square) [List triangle]
           [(strip, []); ([], [List triangle])] float_three); reflexivity.
Defined.

Lemma feature_rows_share_height_witness :
  exists rows,
    ring_rows float_twelve square = [] ++ rows
    /\ (rows = []
        \/ exists height,
             get_building_height decimal_float (feature_properties square_feature)
             = OK height
             /\ Forall (fun r => row_height r = height) rows).
Proof.
  apply (feature_rows_share_height decimal_float square_feature []
           (ring_rows float_twelve square)).
  reflexivity.
Defined.

Lemma multipolygon_short_points_witness :
  process_feature decimal_float [] (Dict ragged_feature)
  = OK ([] ++ flat_map (fun part => ring_rows float_three (fst part)) ragged_parts)
  /\ length (flat_map (fun part => ring_rows float_three (fst part)) ragged_parts)
     = list_sum (map (fun part => length (filter two_coordinates (fst part))) ragged_parts).
Proof.
  apply (multipolygon_short_points decimal_float ragged_feature ragged_geometry
           ragged_parts float_three []); reflexivity.
Defined.

Lemma polygon_short_points_witness :
  process_feature decimal_float [] (Dict ragged_polygon_feature)
  = OK ([] ++ ring_rows float_twelve ragged_ring)
  /\ length (ring_rows float_twelve ragged_ring)
     = length (filter two_coordinates ragged_ring).
Proof.
  apply (polygon_short_points decimal_float ragged_polygon_feature ragged_polygon_geometry
           (Int 7) [] short_ring [List triangle] float_twelve []); reflexivity.
Defined.

Lemma missing_coordinates_no_rows_witness :
  process_feature decimal_float [] (Dict hollow_feature) = OK [].
Proof.
  apply (missing_coordinates_no_rows decimal_float hollow_feature hollow_geometry
           "Polygon" float_twelve []); reflexivity.
Defined.

Lemma bad_feature_loses_all_witness :
  process_geojson decimal_float (fun _ => OK (Dict broken_items)) true every_figure
    "export.geojson" "buildings.csv" (Some "preview.png")
  = ([], Raise IndexError).
Proof.
  apply (bad_feature_loses_all decimal_float (fun _ => OK (Dict broken_items)) true
           every_figure "export.geojson" "buildings.csv" (Some "preview.png") broken_items
           [Dict square_feature] [Dict two_parts_feature]
           (Dict (polygon_feature_of [List []])) [ring_rows float_twelve square]);
    reflexivity.
Defined.

Lemma missing_features_header_only_witness :
  process_geojson decimal_float (fun _ => OK (Dict featureless_items)) true every_figure
    "export.geojson" "buildings.csv" (Some "preview.png")
  = ([CsvWritten "buildings.csv" [csv_header]], OK 0).
Proof.
  apply (missing_features_header_only decimal_float (fun _ => OK (Dict featureless_items))
           true every_figure "export.geojson" "buildings.csv" (Some "preview.png")
           featureless_items); reflexivity.
Defined.

Lemma figure_shows_csv_points_witness :
  Forall (figure_of "preview.png" sample_points)
    (fst (process_geojson decimal_float (fun _ => OK sample_document) true flat_figures_only
            "export.geojson" "buildings.csv" (Some "preview.png")))
  /\ (length (filter is_figure_saved
                (fst (process_geojson decimal_float (fun _ => OK sample_document) true
                        flat_figures_only "export.geojson" "buildings.csv"
                        (Some "preview.png")))) <= 1)%nat.
Proof.
  apply (figure_shows_csv_points decimal_float (fun _ => OK sample_document) true
           flat_figures_only "export.geojson" "buildings.csv" (Some "preview.png")
           sample_document sample_points); reflexivity.
Defined.

Lemma plot_3d_saved_witness :
  process_geojson decimal_float (fun _ => OK sample_document) true every_figure
    "export.geojson" "buildings.csv" (Some "preview.png")
  = ([CsvWritten "buildings.csv" (csv_header :: map csv_record sample_points);
      FigureSaved Scatter3D "preview.png" sample_points],
     OK (length sample_points)).
Proof.
  apply (plot_3d_saved decimal_float (fun _ => OK sample_document) true every_figure
           "export.geojson" "buildings.csv" "preview.png" sample_document sample_points tt);
    try reflexivity; discriminate.
Defined.

Lemma plot_2d_without_3d_witness :
  process_geojson decimal_float (fun _ => OK sample_document) false no_figure
    "export.geojson" "buildings.csv" (Some "preview.png")
  = match no_figure Scatter2D sample_points "preview.png" with
    | OK _ =>
        ([CsvWritten "buildings.csv" (csv_header :: map csv_record sample_points);
          FigureSaved Scatter2D "preview.png" sample_points],
         OK (length sample_points))
    | Raise e =>
        ([CsvWritten "buildings.csv" (csv_header :: map csv_record sample_points)], Raise e)
    end.
Proof.
  apply (plot_2d_without_3d decimal_float (fun _ => OK sample_document) false no_figure
           "export.geojson" "buildings.csv" "preview.png" sample_document sample_points);
    try reflexivity; discriminate.
Defined.

Lemma csv_three_columns_witness :
  "buildings.csv" = "buildings.csv"
  /\ Forall (fun record => length record = 3) (csv_header :: map csv_record sample_points).
Proof.
  apply (csv_three_columns decimal_float (fun _ => OK sample_document) true
           flat_figures_only "export.geojson" "buildings.csv" (Some "preview.png")).
  left. reflexivity.
Defined.

Lemma count_is_sum_of_features_witness :
  process_geojson decimal_float (fun _ => OK sample_document) true every_figure
    "export.geojson" "buildings.csv" None
  = ([CsvWritten "buildings.csv"
        (csv_header
         :: map csv_record
              (concat [ring_rows float_twelve square; [];
                       ring_rows float_twelve square ++ ring_rows float_twelve strip]))],
     OK (list_sum
           (map (@length row)
              [ring_rows float_twelve square; [];
               ring_rows float_twelve square ++ ring_rows float_twelve strip]))).
Proof.
  apply (count_is_sum_of_features decimal_float (fun _ => OK sample_document) true
           every_figure "export.geojson" "buildings.csv"
           [("type", Str "FeatureCollection");
            ("features",
             List [Dict square_feature; Dict point_feature; Dict two_parts_feature])]
           [Dict square_feature; Dict point_feature; Dict two_parts_feature]);
    reflexivity.
Defined.

Lemma null_properties_raise_witness :
  process_feature decimal_float [] (Dict (("properties", PyNone) :: plain_feature))
  = (wanted <- polygon_geometry (feature_geometry (("properties", PyNone) :: plain_feature)) ;;
     if wanted : bool then Raise TypeError else OK []).
Proof.
  apply (null_properties_raise decimal_float (("properties", PyNone) :: plain_feature) []).
  reflexivity.
Defined.
